(** * ProxmoxMCP: the guest-agent command executor

    A shallow embedding of [VMConsoleManager.execute_command]
    (src/proxmox_mcp/tools/vm_console.py) and the properties its
    specification states about it.

    The method talks to one collaborator, the Proxmox API handle, three
    times at most (status query, [exec] submission, [exec-status] poll),
    sleeps once in between, and turns whatever happens into either a result
    dictionary or a [ValueError]/[RuntimeError].  The embedding keeps that
    shape: Python values and exceptions are data, the collaborator is a
    record of functions returning an outcome, and the method runs in a small
    monad that records the calls it makes and carries the exception raised. *)

From stdpp Require Import base strings gmap pretty.
From Stdlib Require Import ZArith Ascii.

(** ** Python values *)

(** The values that cross the collaborator boundary.  [VOther] stands for
    any object the method only ever tests for truth or renders with [str]
    (a list, a float, a nested mapping held in a field, ...): it carries
    what [bool(x)] and [str(x)] give.  Such an object is taken not to be a
    [str] subclass, so it never compares equal to a string. *)
Inductive value : Type :=
| VNone
| VBool (b : bool)
| VInt (n : Z)
| VStr (s : string)
| VOther (truthy : bool) (rendering : string).

(** What the poll hands back: [isinstance(console, dict)] is [Mapping]. *)
Inductive response : Type :=
| Mapping (d : gmap string value)
| Plain (v : value).

(** ** Exceptions *)

(** Classes below [Exception]; [Derived] is a subclass declared by a library
    (the API client's own errors, [json.JSONDecodeError], ...).  Signals
    that do not derive from [Exception] ([KeyboardInterrupt],
    [asyncio.CancelledError]) are no failure of the collaborator and are not
    part of the model. *)
Inductive exn_class : Type :=
| Exception
| ValueError
| RuntimeError
| KeyError
| Derived (name : string) (base : exn_class).

(** [exn_str] is [str(e)]. *)
Record exn : Type := Exn { exn_cls : exn_class; exn_str : string }.

(** [isinstance(e, ValueError)], as the clause [except ValueError] tests it. *)
Fixpoint issubclass_ValueError (c : exn_class) : bool :=
  match c with
  | ValueError => true
  | Derived _ base => issubclass_ValueError base
  | _ => false
  end.

Definition isinstance_ValueError (e : exn) : bool :=
  issubclass_ValueError (exn_cls e).

(** ** Strings *)

(** [str.lower()].  Only ASCII letters are folded; bytes of other characters
    are left alone.  For the test made on the result this agrees with
    Python: no character outside ASCII lowercases to a letter of
    ["not found"]. *)
Definition lower_ascii (c : ascii) : ascii :=
  let n := nat_of_ascii c in
  if (65 <=? n)%nat && (n <=? 90)%nat then ascii_of_nat (n + 32) else c.

Fixpoint lower (s : string) : string :=
  match s with
  | EmptyString => EmptyString
  | String c s' => String (lower_ascii c) (lower s')
  end.

(** [needle in hay] on strings: substring search. *)
Fixpoint str_in (needle hay : string) : bool :=
  String.prefix needle hay ||
  match hay with
  | EmptyString => false
  | String _ hay' => str_in needle hay'
  end.

(** The test of line 128. *)
Definition mentions_not_found (msg : string) : bool :=
  str_in "not found" (lower msg).

(** [bool(v)]. *)
Definition truthy_value (v : value) : bool :=
  match v with
  | VNone => false
  | VBool b => b
  | VInt n => negb (n =? 0)%Z
  | VStr s => negb (String.eqb s "")
  | VOther t _ => t
  end.

(** [bool(console)]: a mapping is true when it has an entry. *)
Definition truthy (r : response) : bool :=
  match r with
  | Mapping d => negb (size d =? 0)%nat
  | Plain v => truthy_value v
  end.

(** [str(v)] for a value that is not a mapping. *)
Definition py_str (v : value) : string :=
  match v with
  | VNone => "None"
  | VBool true => "True"
  | VBool false => "False"
  | VInt n => pretty n
  | VStr s => s
  | VOther _ r => r
  end.

(** [v != s] for a string literal [s]. *)
Definition differs_from_str (v : value) (s : string) : bool :=
  match v with
  | VStr s' => negb (String.eqb s' s)
  | _ => true
  end.

(** ** The collaborator *)

Inductive outcome (A : Type) : Type :=
| Returns (a : A)
| Raises (e : exn).
Arguments Returns {A} a.
Arguments Raises {A} e.

(** The three operations the method calls on [self.proxmox].  The status
    and submit replies are the JSON objects the API client decodes, hence
    mappings; the poll reply is whatever comes back.  Building the endpoint
    objects ([nodes(node).qemu(vmid).agent], [endpoint("exec")]) only
    assembles a path and is no call of its own. *)
Record ProxmoxAPI : Type := {
  (* nodes(node).qemu(vmid).status.current.get() *)
  status_current_get : string -> string -> outcome (gmap string value);
  (* nodes(node).qemu(vmid).agent("exec").post(command=command) *)
  agent_exec_post : string -> string -> string -> outcome (gmap string value);
  (* nodes(node).qemu(vmid).agent("exec-status").get(pid=pid) *)
  agent_exec_status_get : string -> string -> value -> outcome response
}.

(** ** Effects *)

(** What an invocation does that the outside can observe: the calls on the
    collaborator, the sleep, and the one warning it may log.  The remaining
    log and print lines only render values and are left out. *)
Inductive event : Type :=
| EvStatus (node vmid : string)
| EvSubmit (node vmid command : string)
| EvSleep (seconds : Z)
| EvPoll (node vmid : string) (pid : value)
| EvWarning (msg : string).

(** A computation yields the events it produced, in order, and how it
    ended. *)
Definition M (A : Type) : Type := (list event * outcome A)%type.

Definition ret {A} (a : A) : M A := ([], Returns a).
Definition raise {A} (e : exn) : M A := ([], Raises e).
Definition emit (ev : event) : M unit := ([ev], Returns tt).

Definition bind {A B} (m : M A) (k : A -> M B) : M B :=
  match m with
  | (t, Returns a) => let (t', r) := k a in (t ++ t', r)
  | (t, Raises e) => (t, Raises e)
  end.

(** [try: m  except Exception as e: h e].  Every [exn] derives from
    [Exception], so the handler takes all of them; an exception outside
    [Exception] would pass it by, and none is in the model. *)
Definition try_except {A} (m : M A) (h : exn -> M A) : M A :=
  match m with
  | (t, Returns a) => (t, Returns a)
  | (t, Raises e) => let (t', r) := h e in (t ++ t', r)
  end.

(** A call on the collaborator: record it, then return or raise as it did. *)
Definition call {A} (ev : event) (o : outcome A) : M A := ([ev], o).

#[global] Instance M_ret : MRet M := @ret.
#[global] Instance M_bind : MBind M := fun A B k m => bind m k.

(** ** execute_command *)

Section Execute.
Variable proxmox : ProxmoxAPI.
Variables node vmid command : string.

(** The three exceptions the method itself builds for its caller. *)
Definition not_running_error : exn :=
  Exn ValueError ("VM " +:+ vmid +:+ " on node " +:+ node +:+ " is not running").
Definition not_found_error : exn :=
  Exn ValueError ("VM " +:+ vmid +:+ " not found on node " +:+ node).
Definition execute_failed_error (msg : string) : exn :=
  Exn RuntimeError ("Failed to execute command: " +:+ msg).

(** [vm_status["status"]]: a missing key raises [KeyError('status')],
    whose [str] is the key's [repr]. *)
Definition getitem_status (vm_status : gmap string value) : M value :=
  match vm_status !! "status" with
  | Some v => ret v
  | None => raise (Exn KeyError "'status'")
  end.

(** Lines 54-61: submit the command. *)
Definition start_command : M (gmap string value) :=
  try_except
    (call (EvSubmit node vmid command) (agent_exec_post proxmox node vmid command))
    (fun e => raise (Exn RuntimeError ("Failed to start command: " +:+ exn_str e))).

(** Lines 74-82: poll once for the outcome of process [pid]. *)
Definition get_command_status (pid : value) : M response :=
  try_except
    (console ← call (EvPoll node vmid pid) (agent_exec_status_get proxmox node vmid pid);
     if negb (truthy console)
     then raise (Exn RuntimeError "No response from exec-status")
     else ret console)
    (fun e => raise (Exn RuntimeError ("Failed to get command status: " +:+ exn_str e))).

(** Lines 51-88: the two-step protocol with the sleep in between. *)
Definition run_on_agent : M response :=
  try_except
    (exec_result ← start_command;
     match exec_result !! "pid" with
     | None => raise (Exn RuntimeError "No PID returned from command execution")
     | Some pid =>
         emit (EvSleep 1);;
         get_command_status pid
     end)
    (fun e => raise (Exn RuntimeError ("API call failed: " +:+ exn_str e))).

(** Lines 94-121: turn the poll reply into the result dictionary. *)
Definition normalize (console : response) : M (gmap string value) :=
  match console with
  | Mapping d =>
      let output := default (VStr "") (d !! "out-data") in
      let error := default (VStr "") (d !! "err-data") in
      let exit_code := default (VInt 0) (d !! "exitcode") in
      let exited := default (VInt 0) (d !! "exited") in
      (if negb (truthy_value exited)
       then emit (EvWarning "Command may not have completed")
       else ret tt);;
      ret (<["success" := VBool true]> (<["output" := output]>
           (<["error" := error]> (<["exit_code" := exit_code]> ∅))))
  | Plain v =>
      let output := VStr (py_str v) in
      let error := VStr "" in
      let exit_code := VInt 0 in
      ret (<["success" := VBool true]> (<["output" := output]>
           (<["error" := error]> (<["exit_code" := exit_code]> ∅))))
  end.

(** Lines 123-130: the handlers of the outermost [try]. *)
Definition classify (e : exn) : M (gmap string value) :=
  if isinstance_ValueError e then raise e
  else if mentions_not_found (exn_str e) then raise not_found_error
  else raise (execute_failed_error (exn_str e)).

Definition execute_command : M (gmap string value) :=
  try_except
    (vm_status ← call (EvStatus node vmid) (status_current_get proxmox node vmid);
     status ← getitem_status vm_status;
     if differs_from_str status "running"
     then raise not_running_error
     else
       console ← run_on_agent;
       normalize console)
    classify.

End Execute.

Arguments not_running_error node vmid : assert.
Arguments not_found_error node vmid : assert.

(** ** Vocabulary of the properties *)

(** The result dictionary normalization builds from the three extracted
    values. *)
Definition result_of (output error exit_code : value) : gmap string value :=
  <["success" := VBool true]> (<["output" := output]>
    (<["error" := error]> (<["exit_code" := exit_code]> ∅))).

(** Sleeps in a trace. *)
Definition is_sleep (ev : event) : bool :=
  match ev with EvSleep _ => true | _ => false end.

(** How many times a trace sleeps. *)
Definition settle_delays (t : list event) : nat :=
  length (List.filter is_sleep t).

(** ** Scripted collaborators

    A collaborator that answers the three calls with fixed outcomes, for
    running the method on concrete scenarios. *)
Definition scripted (status submit : outcome (gmap string value))
    (poll : outcome response) : ProxmoxAPI :=
  {| status_current_get := fun _ _ => status;
     agent_exec_post := fun _ _ _ => submit;
     agent_exec_status_get := fun _ _ _ => poll |}.

Definition vm_running : outcome (gmap string value) :=
  Returns {[ "status" := VStr "running" ]}.
Definition vm_stopped : outcome (gmap string value) :=
  Returns {[ "status" := VStr "stopped" ]}.
Definition started (pid : Z) : outcome (gmap string value) :=
  Returns {[ "pid" := VInt pid ]}.

(** * Properties *)

(** ** Strings *)



Example mentions_not_found_any_case :
  mentions_not_found "404 Not Found: VM 100" = true.
Proof. reflexivity. Qed.

Example mentions_not_found_needs_the_space :
  mentions_not_found "notfound, nothing found" = false.
Proof. reflexivity. Qed.

(** The prefixes the handlers put in front of a message never complete an
    occurrence of ["not found"], so the test of line 128 sees through
    them. *)
Lemma mentions_not_found_start (m : string) :
  mentions_not_found ("API call failed: Failed to start command: " +:+ m)
  = mentions_not_found m.
Proof. reflexivity. Qed.

Lemma mentions_not_found_status (m : string) :
  mentions_not_found ("API call failed: " +:+ "Failed to get command status: " +:+ m)
  = mentions_not_found m.
Proof. reflexivity. Qed.


Lemma differs_from_str_spec (v : value) (s : string) :
  differs_from_str v s = true <-> v <> VStr s.
Proof.
  destruct v; simpl; try (split; [discriminate | reflexivity]).
  destruct (String.eqb_spec s0 s); simpl; split; congruence.
Qed.

(** ** The blocks of the method, one equation per way they can go *)

Section Steps.
Variable api : ProxmoxAPI.
Variables node vmid command : string.

Lemma start_command_returns (d : gmap string value) :
  agent_exec_post api node vmid command = Returns d ->
  start_command api node vmid command = ([EvSubmit node vmid command], Returns d).
Proof. intros H. unfold start_command, call. now rewrite H. Qed.

Lemma start_command_raises (e : exn) :
  agent_exec_post api node vmid command = Raises e ->
  start_command api node vmid command
  = ([EvSubmit node vmid command],
     Raises (Exn RuntimeError ("Failed to start command: " +:+ exn_str e))).
Proof. intros H. unfold start_command, call. now rewrite H. Qed.

Lemma get_command_status_returns (pid : value) (console : response) :
  agent_exec_status_get api node vmid pid = Returns console ->
  truthy console = true ->
  get_command_status api node vmid pid = ([EvPoll node vmid pid], Returns console).
Proof.
  intros H T. unfold get_command_status, call. rewrite H.
  cbn. now rewrite T.
Qed.

Lemma get_command_status_empty (pid : value) (console : response) :
  agent_exec_status_get api node vmid pid = Returns console ->
  truthy console = false ->
  get_command_status api node vmid pid
  = ([EvPoll node vmid pid],
     Raises (Exn RuntimeError "Failed to get command status: No response from exec-status")).
Proof.
  intros H T. unfold get_command_status, call. rewrite H.
  cbn. now rewrite T.
Qed.

Lemma get_command_status_raises (pid : value) (e : exn) :
  agent_exec_status_get api node vmid pid = Raises e ->
  get_command_status api node vmid pid
  = ([EvPoll node vmid pid],
     Raises (Exn RuntimeError ("Failed to get command status: " +:+ exn_str e))).
Proof. intros H. unfold get_command_status, call. now rewrite H. Qed.

(** The poll never adds an event of its own beyond the call, and an
    exception leaving it is always the [RuntimeError] of line 82. *)
Lemma get_command_status_shape (pid : value) :
  exists r, get_command_status api node vmid pid = ([EvPoll node vmid pid], r) /\
    match r with
    | Returns console => truthy console = true
    | Raises e => exists m, e = Exn RuntimeError ("Failed to get command status: " +:+ m)
    end.
Proof.
  destruct (agent_exec_status_get api node vmid pid) as [console|e] eqn:H.
  - destruct (truthy console) eqn:T.
    + exists (Returns console).
      split; [now apply get_command_status_returns | exact T].
    + eexists; split; [eapply get_command_status_empty; eassumption | now eexists].
  - eexists; split; [eapply get_command_status_raises; eassumption | now eexists].
Qed.

Lemma run_on_agent_submit_raises (e : exn) :
  agent_exec_post api node vmid command = Raises e ->
  run_on_agent api node vmid command
  = ([EvSubmit node vmid command],
     Raises (Exn RuntimeError
               ("API call failed: Failed to start command: " +:+ exn_str e))).
Proof.
  intros H. unfold run_on_agent. now rewrite (start_command_raises _ H).
Qed.

Lemma run_on_agent_no_pid (exec_result : gmap string value) :
  agent_exec_post api node vmid command = Returns exec_result ->
  exec_result !! "pid" = None ->
  run_on_agent api node vmid command
  = ([EvSubmit node vmid command],
     Raises (Exn RuntimeError
               "API call failed: No PID returned from command execution")).
Proof.
  intros H P. unfold run_on_agent. rewrite (start_command_returns _ H).
  cbn. now rewrite P.
Qed.

Lemma run_on_agent_polls (exec_result : gmap string value) (pid : value) :
  agent_exec_post api node vmid command = Returns exec_result ->
  exec_result !! "pid" = Some pid ->
  run_on_agent api node vmid command
  = ([EvSubmit node vmid command; EvSleep 1; EvPoll node vmid pid],
     match snd (get_command_status api node vmid pid) with
     | Returns console => Returns console
     | Raises e => Raises (Exn RuntimeError ("API call failed: " +:+ exn_str e))
     end).
Proof.
  intros H P. unfold run_on_agent. rewrite (start_command_returns _ H).
  cbn. rewrite P.
  destruct (get_command_status_shape pid) as (r & -> & _).
  now destruct r.
Qed.

End Steps.

(** ** The whole method *)

Lemma classify_raises (node vmid : string) (e : exn) :
  classify node vmid e
  = ([], Raises (if isinstance_ValueError e then e
                 else if mentions_not_found (exn_str e)
                      then not_found_error node vmid
                      else execute_failed_error (exn_str e))).
Proof.
  unfold classify.
  destruct (isinstance_ValueError e); [reflexivity |].
  now destruct (mentions_not_found (exn_str e)).
Qed.

Lemma normalize_returns (console : response) :
  exists t output error exit_code,
    normalize console = (t, Returns (result_of output error exit_code)).
Proof.
  destruct console as [d|v]; cbn.
  - destruct (negb (truthy_value (default (VInt 0) (d !! "exited"))));
      cbn; repeat eexists.
  - repeat eexists.
Qed.

Section Invocation.
Variable api : ProxmoxAPI.
Variables node vmid command : string.

Lemma execute_command_status_raises (e : exn) :
  status_current_get api node vmid = Raises e ->
  execute_command api node vmid command
  = ([EvStatus node vmid], snd (classify node vmid e)).
Proof.
  intros H. unfold execute_command, call. rewrite H. cbn.
  now rewrite classify_raises.
Qed.

Lemma execute_command_no_status (vm_status : gmap string value) :
  status_current_get api node vmid = Returns vm_status ->
  vm_status !! "status" = None ->
  execute_command api node vmid command
  = ([EvStatus node vmid], Raises (execute_failed_error "'status'")).
Proof.
  intros H S. unfold execute_command, call, getitem_status. rewrite H. cbn.
  now rewrite S.
Qed.

Lemma execute_command_not_running (vm_status : gmap string value) (status : value) :
  status_current_get api node vmid = Returns vm_status ->
  vm_status !! "status" = Some status ->
  differs_from_str status "running" = true ->
  execute_command api node vmid command
  = ([EvStatus node vmid], Raises (not_running_error node vmid)).
Proof.
  intros H S D. unfold execute_command, call, getitem_status. rewrite H. cbn.
  rewrite S. cbn. now rewrite D.
Qed.

(** Once the machine is seen running, the outcome is that of the agent
    protocol, normalized or classified. *)
Lemma execute_command_running (vm_status : gmap string value) :
  status_current_get api node vmid = Returns vm_status ->
  vm_status !! "status" = Some (VStr "running") ->
  execute_command api node vmid command
  = match run_on_agent api node vmid command with
    | (t, Returns console) =>
        (EvStatus node vmid :: t ++ fst (normalize console),
         snd (normalize console))
    | (t, Raises e) => (EvStatus node vmid :: t, snd (classify node vmid e))
    end.
Proof.
  intros H S. unfold execute_command, call, getitem_status. rewrite H. cbn.
  rewrite S. cbn.
  destruct (run_on_agent api node vmid command) as [t [console|e]]; cbn.
  - destruct (normalize_returns console) as (t' & o & er & ec & ->).
    reflexivity.
  - rewrite classify_raises. cbn. now rewrite app_nil_r.
Qed.

End Invocation.

Lemma result_of_success (output error exit_code : value) :
  result_of output error exit_code !! "success" = Some (VBool true).
Proof. apply lookup_insert_eq. Qed.

Lemma result_of_dom (output error exit_code : value) :
  dom (result_of output error exit_code)
  = ({[ "success"; "output"; "error"; "exit_code" ]} : gset string).
Proof. unfold result_of. rewrite !dom_insert_L, dom_empty_L. set_solver. Qed.

Lemma truthy_mapping_with_entry (d : gmap string value) (k : string) (v : value) :
  d !! k = Some v -> truthy (Mapping d) = true.
Proof.
  intros L. cbn. destruct (size d) eqn:Z; [| reflexivity].
  apply map_size_empty_inv in Z. subst d. now rewrite lookup_empty in L.
Qed.

Lemma truthy_mapping_nonempty (d : gmap string value) :
  d <> ∅ -> truthy (Mapping d) = true.
Proof.
  intros N. cbn. destruct (size d) eqn:Z; [| reflexivity].
  now apply map_size_empty_inv in Z.
Qed.

Section Polled.
Variable api : ProxmoxAPI.
Variables node vmid command : string.
Variables vm_status exec_result : gmap string value.
Variable pid : value.
Hypothesis status_ok : status_current_get api node vmid = Returns vm_status.
Hypothesis running : vm_status !! "status" = Some (VStr "running").
Hypothesis submit_ok : agent_exec_post api node vmid command = Returns exec_result.
Hypothesis has_pid : exec_result !! "pid" = Some pid.

(** What a reply that passes the emptiness test of line 78 leads to. *)
Lemma execute_command_polled (console : response) :
  agent_exec_status_get api node vmid pid = Returns console ->
  truthy console = true ->
  execute_command api node vmid command
  = ([EvStatus node vmid; EvSubmit node vmid command; EvSleep 1;
      EvPoll node vmid pid] ++ fst (normalize console),
     snd (normalize console)).
Proof.
  intros C T.
  rewrite (execute_command_running _ _ _ _ _ status_ok running).
  rewrite (run_on_agent_polls _ _ _ _ _ _ submit_ok has_pid).
  now rewrite (get_command_status_returns _ _ _ _ _ C T).
Qed.

Lemma execute_command_poll_empty (console : response) :
  agent_exec_status_get api node vmid pid = Returns console ->
  truthy console = false ->
  execute_command api node vmid command
  = ([EvStatus node vmid; EvSubmit node vmid command; EvSleep 1;
      EvPoll node vmid pid],
     Raises (Exn RuntimeError
       "Failed to execute command: API call failed: Failed to get command status: No response from exec-status")).
Proof.
  intros C T.
  rewrite (execute_command_running _ _ _ _ _ status_ok running).
  rewrite (run_on_agent_polls _ _ _ _ _ _ submit_ok has_pid).
  rewrite (get_command_status_empty _ _ _ _ _ C T).
  cbn [snd]. now rewrite classify_raises.
Qed.

End Polled.

(** ** Scenarios *)

(** The happy path, with the reply of a finished [echo hi]. *)
Example scenario_finished_command :
  execute_command
    (scripted vm_running (started 42)
       (Returns (Mapping (<["out-data" := VStr "hi"]> (<["exitcode" := VInt 0]>
                   (<["exited" := VInt 1]> ∅))))))
    "pve" "100" "echo hi"
  = ([EvStatus "pve" "100"; EvSubmit "pve" "100" "echo hi"; EvSleep 1;
      EvPoll "pve" "100" (VInt 42)],
     Returns (result_of (VStr "hi") (VStr "") (VInt 0))).
Proof. reflexivity. Qed.

(** A status reply without the ["status"] key: the [KeyError] is wrapped
    like any other failure. *)
Example scenario_status_key_missing :
  execute_command (scripted (Returns ∅) (started 42) (Returns (Plain VNone)))
    "pve" "100" "uptime"
  = ([EvStatus "pve" "100"],
     Raises (Exn RuntimeError "Failed to execute command: 'status'")).
Proof. reflexivity. Qed.

(** A failing submission is wrapped three times on its way out. *)
Example scenario_submit_refused :
  execute_command
    (scripted vm_running (Raises (Exn Exception "agent not running"))
       (Returns (Plain VNone)))
    "pve" "100" "uptime"
  = ([EvStatus "pve" "100"; EvSubmit "pve" "100" "uptime"],
     Raises (Exn RuntimeError
       "Failed to execute command: API call failed: Failed to start command: agent not running")).
Proof. reflexivity. Qed.

(** ** Precondition: the machine must be running *)

(** C2.  Whenever the status query reports a status other than ["running"],
    the method raises the not-running [ValueError], and the only call it
    has made on the collaborator is the status query: neither the submit
    nor the poll operation is invoked. *)
Theorem not_running_stops_before_submit
    (api : ProxmoxAPI) (node vmid command : string)
    (vm_status : gmap string value) (status : value) :
  status_current_get api node vmid = Returns vm_status ->
  vm_status !! "status" = Some status ->
  status <> VStr "running" ->
  execute_command api node vmid command
  = ([EvStatus node vmid], Raises (not_running_error node vmid)).
Proof.
  intros H S D. eapply execute_command_not_running; eauto.
  now apply differs_from_str_spec.
Qed.

Lemma not_running_stops_before_submit_witness :
  execute_command (scripted vm_stopped (started 42) (Returns (Plain (VStr "done"))))
    "pve" "100" "uptime"
  = ([EvStatus "pve" "100"],
     Raises (Exn ValueError "VM 100 on node pve is not running")).
Proof.
  apply (not_running_stops_before_submit _ "pve" "100" "uptime"
           {[ "status" := VStr "stopped" ]} (VStr "stopped"));
    [reflexivity | reflexivity | discriminate].
Defined.

(** ** Submission *)

(** C6.  When the submit reply carries no ["pid"], the method raises a
    [RuntimeError] whose message carries "No PID returned from command
    execution", and the trace ends with the submit call: the poll operation
    is never invoked (nor does the method sleep). *)
Theorem missing_pid_fails_before_poll
    (api : ProxmoxAPI) (node vmid command : string)
    (vm_status exec_result : gmap string value) :
  status_current_get api node vmid = Returns vm_status ->
  vm_status !! "status" = Some (VStr "running") ->
  agent_exec_post api node vmid command = Returns exec_result ->
  exec_result !! "pid" = None ->
  execute_command api node vmid command
  = ([EvStatus node vmid; EvSubmit node vmid command],
     Raises (Exn RuntimeError
       "Failed to execute command: API call failed: No PID returned from command execution")).
Proof.
  intros H S E P.
  rewrite (execute_command_running _ _ _ _ _ H S).
  rewrite (run_on_agent_no_pid _ _ _ _ _ E P).
  now rewrite classify_raises.
Qed.

Lemma missing_pid_fails_before_poll_witness :
  execute_command (scripted vm_running (Returns ∅) (Returns (Plain (VStr "done"))))
    "pve" "100" "uptime"
  = ([EvStatus "pve" "100"; EvSubmit "pve" "100" "uptime"],
     Raises (Exn RuntimeError
       "Failed to execute command: API call failed: No PID returned from command execution")).
Proof.
  apply (missing_pid_fails_before_poll _ "pve" "100" "uptime"
           {[ "status" := VStr "running" ]} ∅); reflexivity.
Defined.

(** ** The settle delay *)

Lemma normalize_trace (console : response) :
  fst (normalize console) = []
  \/ fst (normalize console) = [EvWarning "Command may not have completed"].
Proof.
  destruct console as [d|v]; cbn; [| now left].
  destruct (negb (truthy_value (default (VInt 0) (d !! "exited"))));
    cbn; [now right | now left].
Qed.

(** C5.  With the machine running: if the submit reply carries a process
    identifier, the trace of the invocation is status query, submit, one
    sleep of 1, poll of that identifier, and then at most the warning of
    normalization, so the method sleeps exactly once, after the submit and
    before the poll; if the submission fails, by raising or by returning no
    identifier, the trace ends with the submit call and holds no sleep. *)
Theorem settle_delay_once_between_submit_and_poll
    (api : ProxmoxAPI) (node vmid command : string)
    (vm_status : gmap string value) :
  status_current_get api node vmid = Returns vm_status ->
  vm_status !! "status" = Some (VStr "running") ->
  let trace := fst (execute_command api node vmid command) in
  (forall exec_result pid,
      agent_exec_post api node vmid command = Returns exec_result ->
      exec_result !! "pid" = Some pid ->
      settle_delays trace = 1 /\
      exists tail,
        trace = [EvStatus node vmid; EvSubmit node vmid command;
                 EvSleep 1; EvPoll node vmid pid] ++ tail /\
        (tail = [] \/ tail = [EvWarning "Command may not have completed"]))
  /\ (forall e,
      agent_exec_post api node vmid command = Raises e ->
      trace = [EvStatus node vmid; EvSubmit node vmid command]
      /\ settle_delays trace = 0)
  /\ (forall exec_result,
      agent_exec_post api node vmid command = Returns exec_result ->
      exec_result !! "pid" = None ->
      trace = [EvStatus node vmid; EvSubmit node vmid command]
      /\ settle_delays trace = 0).
Proof.
  intros H S trace. subst trace.
  rewrite (execute_command_running _ _ _ _ _ H S).
  repeat split.
  - rewrite (run_on_agent_polls _ _ _ _ _ _ H0 H1).
    destruct (get_command_status_shape api node vmid pid) as (r & -> & _).
    destruct r as [console|e]; cbn [snd fst]; [| reflexivity].
    destruct (normalize_trace console) as [-> | ->]; reflexivity.
  - rewrite (run_on_agent_polls _ _ _ _ _ _ H0 H1).
    destruct (get_command_status_shape api node vmid pid) as (r & -> & _).
    destruct r as [console|e]; cbn [snd fst].
    + exists (fst (normalize console)). split; [reflexivity |].
      apply normalize_trace.
    + exists []. split; [reflexivity | now left].
  - now rewrite (run_on_agent_submit_raises _ _ _ _ _ H0).
  - now rewrite (run_on_agent_submit_raises _ _ _ _ _ H0).
  - now rewrite (run_on_agent_no_pid _ _ _ _ _ H0 H1).
  - now rewrite (run_on_agent_no_pid _ _ _ _ _ H0 H1).
Qed.

Lemma settle_delay_once_between_submit_and_poll_witness :
  settle_delays
    (fst (execute_command
            (scripted vm_running (started 42) (Returns (Plain (VStr "done"))))
            "pve" "100" "uptime")) = 1.
Proof.
  destruct (settle_delay_once_between_submit_and_poll
              (scripted vm_running (started 42) (Returns (Plain (VStr "done"))))
              "pve" "100" "uptime" {[ "status" := VStr "running" ]}
              eq_refl eq_refl) as [Hsubmitted _].
  exact (proj1 (Hsubmitted {[ "pid" := VInt 42 ]} (VInt 42) eq_refl eq_refl)).
Defined.

(** ** Polling *)




(** ** Classification of failures *)





(** The not-running error is not touched by the message test even when the
    identifiers make its text mention "not found". *)
Example not_running_with_not_found_in_its_text :
  execute_command (scripted vm_stopped (started 42) (Returns (Plain VNone)))
    "pve" "not found" "uptime"
  = ([EvStatus "pve" "not found"],
     Raises (Exn ValueError "VM not found on node pve is not running")).
Proof. reflexivity. Qed.




(** ** Normalization of the poll reply *)

(** C3.  Whenever the poll reply gets past the emptiness test, so that
    normalization runs, the method returns, and the result it returns has
    ["success"] set to [True], whatever exit code or [exited] flag the
    reply holds.  In particular a mapping reply whose [exited] is 0 yields
    a result with ["success"] true, after the warning has been logged. *)
Theorem success_is_true_whenever_normalization_runs
    (api : ProxmoxAPI) (node vmid command : string)
    (vm_status exec_result : gmap string value) (pid : value) :
  status_current_get api node vmid = Returns vm_status ->
  vm_status !! "status" = Some (VStr "running") ->
  agent_exec_post api node vmid command = Returns exec_result ->
  exec_result !! "pid" = Some pid ->
  (forall console,
      agent_exec_status_get api node vmid pid = Returns console ->
      truthy console = true ->
      exists result,
        snd (execute_command api node vmid command) = Returns result
        /\ result !! "success" = Some (VBool true))
  /\ (forall d,
      agent_exec_status_get api node vmid pid = Returns (Mapping d) ->
      d !! "exited" = Some (VInt 0) ->
      exists result,
        execute_command api node vmid command
        = ([EvStatus node vmid; EvSubmit node vmid command; EvSleep 1;
            EvPoll node vmid pid; EvWarning "Command may not have completed"],
           Returns result)
        /\ result !! "success" = Some (VBool true)
        /\ result !! "exit_code" = Some (default (VInt 0) (d !! "exitcode"))).
Proof.
  intros H S E P. split.
  - intros console C T.
    rewrite (execute_command_polled _ _ _ _ _ _ _ H S E P _ C T).
    destruct (normalize_returns console) as (t & o & er & ec & ->).
    eexists. split; [reflexivity | apply result_of_success].
  - intros d C X.
    rewrite (execute_command_polled _ _ _ _ _ _ _ H S E P _ C
               (truthy_mapping_with_entry _ _ _ X)).
    cbn. rewrite X. cbn.
    eexists. split; [reflexivity |].
    split; [apply result_of_success |].
    now rewrite !lookup_insert_ne, lookup_insert_eq by discriminate.
Qed.

Lemma success_is_true_whenever_normalization_runs_witness :
  exists result,
    execute_command
      (scripted vm_running (started 42) (Returns (Mapping {[ "exited" := VInt 0 ]})))
      "pve" "100" "sleep 60"
    = ([EvStatus "pve" "100"; EvSubmit "pve" "100" "sleep 60"; EvSleep 1;
        EvPoll "pve" "100" (VInt 42); EvWarning "Command may not have completed"],
       Returns result)
    /\ result !! "success" = Some (VBool true)
    /\ result !! "exit_code" = Some (VInt 0).
Proof.
  destruct (success_is_true_whenever_normalization_runs
       (scripted vm_running (started 42) (Returns (Mapping {[ "exited" := VInt 0 ]})))
       "pve" "100" "sleep 60" {[ "status" := VStr "running" ]} {[ "pid" := VInt 42 ]}
       (VInt 42) eq_refl eq_refl eq_refl eq_refl) as [_ Hincomplete].
  exact (Hincomplete {[ "exited" := VInt 0 ]} eq_refl eq_refl).
Defined.

(** C4.  Normalization of a mapping reply takes ["output"] from the field
    [out-data], ["error"] from [err-data] and ["exit_code"] from
    [exitcode], with the empty string, the empty string and 0 standing in
    for a missing field; a mapping reply with an entry reaches
    normalization, and the method then returns exactly that result.  The
    reply [{out-data: "hi", err-data: "", exitcode: 0, exited: 1}] yields
    [{success: True, output: "hi", error: "", exit_code: 0}]. *)
Theorem mapping_reply_fields_are_extracted
    (api : ProxmoxAPI) (node vmid command : string)
    (vm_status exec_result : gmap string value) (pid : value) :
  status_current_get api node vmid = Returns vm_status ->
  vm_status !! "status" = Some (VStr "running") ->
  agent_exec_post api node vmid command = Returns exec_result ->
  exec_result !! "pid" = Some pid ->
  (forall d,
      snd (normalize (Mapping d))
      = Returns (result_of (default (VStr "") (d !! "out-data"))
                           (default (VStr "") (d !! "err-data"))
                           (default (VInt 0) (d !! "exitcode"))))
  /\ (forall d,
      agent_exec_status_get api node vmid pid = Returns (Mapping d) ->
      d <> ∅ ->
      snd (execute_command api node vmid command)
      = Returns (result_of (default (VStr "") (d !! "out-data"))
                           (default (VStr "") (d !! "err-data"))
                           (default (VInt 0) (d !! "exitcode"))))
  /\ (agent_exec_status_get api node vmid pid
      = Returns (Mapping (<["out-data" := VStr "hi"]> (<["err-data" := VStr ""]>
                   (<["exitcode" := VInt 0]> (<["exited" := VInt 1]> ∅))))) ->
      execute_command api node vmid command
      = ([EvStatus node vmid; EvSubmit node vmid command; EvSleep 1;
          EvPoll node vmid pid],
         Returns (result_of (VStr "hi") (VStr "") (VInt 0)))).
Proof.
  intros H S E P.
  assert (N : forall d,
    snd (normalize (Mapping d))
    = Returns (result_of (default (VStr "") (d !! "out-data"))
                         (default (VStr "") (d !! "err-data"))
                         (default (VInt 0) (d !! "exitcode")))).
  { intros d. cbn.
    now destruct (negb (truthy_value (default (VInt 0) (d !! "exited")))). }
  split; [exact N | split].
  - intros d C D.
    rewrite (execute_command_polled _ _ _ _ _ _ _ H S E P _ C
               (truthy_mapping_nonempty _ D)).
    apply N.
  - intros C.
    rewrite (execute_command_polled _ _ _ _ _ _ _ H S E P _ C eq_refl).
    reflexivity.
Qed.

Lemma mapping_reply_fields_are_extracted_witness :
  execute_command
    (scripted vm_running (started 42)
       (Returns (Mapping (<["out-data" := VStr "hi"]> (<["err-data" := VStr ""]>
                   (<["exitcode" := VInt 0]> (<["exited" := VInt 1]> ∅)))))))
    "pve" "100" "echo hi"
  = ([EvStatus "pve" "100"; EvSubmit "pve" "100" "echo hi"; EvSleep 1;
      EvPoll "pve" "100" (VInt 42)],
     Returns (result_of (VStr "hi") (VStr "") (VInt 0))).
Proof.
  exact (proj2 (proj2
    (mapping_reply_fields_are_extracted
       (scripted vm_running (started 42)
          (Returns (Mapping (<["out-data" := VStr "hi"]> (<["err-data" := VStr ""]>
                      (<["exitcode" := VInt 0]> (<["exited" := VInt 1]> ∅)))))))
       "pve" "100" "echo hi" {[ "status" := VStr "running" ]} {[ "pid" := VInt 42 ]}
       (VInt 42) eq_refl eq_refl eq_refl eq_refl))
    eq_refl).
Defined.




(** ** The returned result *)

Lemma differs_from_str_false (v : value) (s : string) :
  differs_from_str v s = false -> v = VStr s.
Proof.
  destruct v; simpl; try discriminate.
  destruct (String.eqb_spec s0 s); simpl; congruence.
Qed.

(** The method returns only through normalization. *)
Lemma execute_command_returns_inv
    (api : ProxmoxAPI) (node vmid command : string)
    (t : list event) (result : gmap string value) :
  execute_command api node vmid command = (t, Returns result) ->
  exists output error exit_code, result = result_of output error exit_code.
Proof.
  intros R.
  destruct (status_current_get api node vmid) as [vm_status|e] eqn:H.
  2: { rewrite (execute_command_status_raises _ _ _ _ _ H), classify_raises in R.
       discriminate R. }
  destruct (vm_status !! "status") as [status|] eqn:S.
  2: { rewrite (execute_command_no_status _ _ _ _ _ H S) in R. discriminate R. }
  destruct (differs_from_str status "running") eqn:D.
  { rewrite (execute_command_not_running _ _ _ _ _ _ H S D) in R. discriminate R. }
  apply differs_from_str_false in D. subst status.
  rewrite (execute_command_running _ _ _ _ _ H S) in R.
  destruct (run_on_agent api node vmid command) as [t' [console|e]].
  - destruct (normalize_returns console) as (tn & o & er & ec & N).
    rewrite N in R. cbn in R. inversion R. now exists o, er, ec.
  - rewrite classify_raises in R. discriminate R.
Qed.

(** C10.  Whenever the method returns, the dictionary it returns has the
    four keys ["success"], ["output"], ["error"] and ["exit_code"] and no
    other, and its ["success"] is [True]: no invocation returns a result
    whose ["success"] is [False]. *)
Theorem returned_result_has_four_fields_and_success
    (api : ProxmoxAPI) (node vmid command : string)
    (t : list event) (result : gmap string value) :
  execute_command api node vmid command = (t, Returns result) ->
  dom result = ({[ "success"; "output"; "error"; "exit_code" ]} : gset string)
  /\ result !! "success" = Some (VBool true)
  /\ result !! "success" <> Some (VBool false).
Proof.
  intros R.
  destruct (execute_command_returns_inv _ _ _ _ _ _ R) as (o & er & ec & ->).
  split; [apply result_of_dom |].
  rewrite result_of_success. split; [reflexivity | discriminate].
Qed.

Lemma returned_result_has_four_fields_and_success_witness :
  dom (result_of (VStr "done") (VStr "") (VInt 0))
  = ({[ "success"; "output"; "error"; "exit_code" ]} : gset string)
  /\ result_of (VStr "done") (VStr "") (VInt 0) !! "success" = Some (VBool true)
  /\ result_of (VStr "done") (VStr "") (VInt 0) !! "success" <> Some (VBool false).
Proof.
  exact (returned_result_has_four_fields_and_success
           (scripted vm_running (started 42) (Returns (Plain (VStr "done"))))
           "pve" "100" "uptime"
           [EvStatus "pve" "100"; EvSubmit "pve" "100" "uptime"; EvSleep 1;
            EvPoll "pve" "100" (VInt 42)]
           (result_of (VStr "done") (VStr "") (VInt 0))
           eq_refl).
Defined.

(** * Further properties of the method *)

(** ** The message test is substring search *)

Lemma prefix_iff (n h : string) :
  String.prefix n h = true <-> exists b, h = n +:+ b.
Proof.
  revert h. induction n as [|c n IH]; intros h.
  - split; [intros _; now exists h | now destruct h].
  - destruct h as [|c' h]; simpl.
    + split; [discriminate | intros [b Hb]; discriminate Hb].
    + destruct (ascii_dec c c') as [->|Hne].
      * rewrite IH. split; intros [b Hb]; exists b.
        -- now rewrite Hb.
        -- now injection Hb.
      * split; [discriminate |].
        intros [b Hb]. injection Hb as Hc _. now symmetry in Hc.
Qed.

Lemma str_in_iff (n h : string) :
  str_in n h = true <-> exists a b, h = a +:+ n +:+ b.
Proof.
  induction h as [|c h IH]; cbn [str_in].
  - rewrite orb_false_r, prefix_iff. split.
    + intros [b Hb]. now exists "", b.
    + intros (a & b & Hab). destruct a; [now exists b | discriminate Hab].
  - rewrite orb_true_iff, prefix_iff, IH. split.
    + intros [[b Hb] | (a & b & Hab)].
      * now exists "", b.
      * exists (String c a), b. simpl. now rewrite Hab.
    + intros (a & b & Hab). destruct a as [|c' a].
      * left. now exists b.
      * right. exists a, b. now injection Hab.
Qed.

(** X9.  The test of line 128 succeeds exactly when the message, once
    lowercased, holds "not found" somewhere as a contiguous substring. *)
Theorem mentions_not_found_iff_substring (msg : string) :
  mentions_not_found msg = true
  <-> exists before after, lower msg = before +:+ "not found" +:+ after.
Proof. unfold mentions_not_found. apply str_in_iff. Qed.

(** ** Every way an invocation can go *)

Section Failures.
Variable api : ProxmoxAPI.
Variables node vmid command : string.
Variable vm_status : gmap string value.
Hypothesis status_ok : status_current_get api node vmid = Returns vm_status.
Hypothesis running : vm_status !! "status" = Some (VStr "running").

Lemma execute_command_submit_raises (e : exn) :
  agent_exec_post api node vmid command = Raises e ->
  execute_command api node vmid command
  = ([EvStatus node vmid; EvSubmit node vmid command],
     Raises (if mentions_not_found (exn_str e)
             then not_found_error node vmid
             else Exn RuntimeError
               ("Failed to execute command: API call failed: Failed to start command: "
                +:+ exn_str e))).
Proof.
  intros E. rewrite (execute_command_running _ _ _ _ _ status_ok running).
  rewrite (run_on_agent_submit_raises _ _ _ _ _ E), classify_raises.
  cbn [snd exn_str isinstance_ValueError exn_cls issubclass_ValueError].
  rewrite mentions_not_found_start.
  now destruct (mentions_not_found (exn_str e)).
Qed.

Lemma execute_command_no_pid (exec_result : gmap string value) :
  agent_exec_post api node vmid command = Returns exec_result ->
  exec_result !! "pid" = None ->
  execute_command api node vmid command
  = ([EvStatus node vmid; EvSubmit node vmid command],
     Raises (Exn RuntimeError
       "Failed to execute command: API call failed: No PID returned from command execution")).
Proof.
  intros E P. rewrite (execute_command_running _ _ _ _ _ status_ok running).
  now rewrite (run_on_agent_no_pid _ _ _ _ _ E P), classify_raises.
Qed.

Lemma execute_command_poll_raises (exec_result : gmap string value) (pid : value) (e : exn) :
  agent_exec_post api node vmid command = Returns exec_result ->
  exec_result !! "pid" = Some pid ->
  agent_exec_status_get api node vmid pid = Raises e ->
  execute_command api node vmid command
  = ([EvStatus node vmid; EvSubmit node vmid command; EvSleep 1;
      EvPoll node vmid pid],
     Raises (if mentions_not_found (exn_str e)
             then not_found_error node vmid
             else Exn RuntimeError
               ("Failed to execute command: API call failed: Failed to get command status: "
                +:+ exn_str e))).
Proof.
  intros E P C. rewrite (execute_command_running _ _ _ _ _ status_ok running).
  rewrite (run_on_agent_polls _ _ _ _ _ _ E P).
  rewrite (get_command_status_raises _ _ _ _ _ C).
  cbn [snd]. rewrite classify_raises.
  cbn [snd exn_str isinstance_ValueError exn_cls issubclass_ValueError].
  rewrite mentions_not_found_status.
  now destruct (mentions_not_found (exn_str e)).
Qed.

End Failures.

(** The eight ways an invocation can go, told apart by what the
    collaborator answers. *)
Lemma execute_command_cases (api : ProxmoxAPI) (node vmid command : string) :
  let run := execute_command api node vmid command in
  (exists e, status_current_get api node vmid = Raises e
     /\ run = ([EvStatus node vmid], snd (classify node vmid e)))
  \/ (exists vm_status, status_current_get api node vmid = Returns vm_status
     /\ vm_status !! "status" = None
     /\ run = ([EvStatus node vmid], Raises (execute_failed_error "'status'")))
  \/ (exists vm_status status, status_current_get api node vmid = Returns vm_status
     /\ vm_status !! "status" = Some status /\ status <> VStr "running"
     /\ run = ([EvStatus node vmid], Raises (not_running_error node vmid)))
  \/ (exists vm_status, status_current_get api node vmid = Returns vm_status
     /\ vm_status !! "status" = Some (VStr "running")
     /\ ((exists e, agent_exec_post api node vmid command = Raises e
          /\ run = ([EvStatus node vmid; EvSubmit node vmid command],
                    Raises (if mentions_not_found (exn_str e)
                            then not_found_error node vmid
                            else Exn RuntimeError
                              ("Failed to execute command: API call failed: Failed to start command: "
                               +:+ exn_str e))))
       \/ (exists exec_result, agent_exec_post api node vmid command = Returns exec_result
          /\ exec_result !! "pid" = None
          /\ run = ([EvStatus node vmid; EvSubmit node vmid command],
                    Raises (Exn RuntimeError
                      "Failed to execute command: API call failed: No PID returned from command execution")))
       \/ (exists exec_result pid,
            agent_exec_post api node vmid command = Returns exec_result
          /\ exec_result !! "pid" = Some pid
          /\ ((exists e, agent_exec_status_get api node vmid pid = Raises e
               /\ run = ([EvStatus node vmid; EvSubmit node vmid command;
                          EvSleep 1; EvPoll node vmid pid],
                         Raises (if mentions_not_found (exn_str e)
                                 then not_found_error node vmid
                                 else Exn RuntimeError
                                   ("Failed to execute command: API call failed: Failed to get command status: "
                                    +:+ exn_str e))))
            \/ (exists console, agent_exec_status_get api node vmid pid = Returns console
               /\ truthy console = false
               /\ run = ([EvStatus node vmid; EvSubmit node vmid command;
                          EvSleep 1; EvPoll node vmid pid],
                         Raises (Exn RuntimeError
                           "Failed to execute command: API call failed: Failed to get command status: No response from exec-status")))
            \/ (exists console, agent_exec_status_get api node vmid pid = Returns console
               /\ truthy console = true
               /\ run = ([EvStatus node vmid; EvSubmit node vmid command;
                          EvSleep 1; EvPoll node vmid pid] ++ fst (normalize console),
                         snd (normalize console))))))).
Proof.
  intros run. subst run.
  destruct (status_current_get api node vmid) as [vm_status|e] eqn:H.
  2: { left. exists e. split; [reflexivity |].
       now apply execute_command_status_raises. }
  right. destruct (vm_status !! "status") as [status|] eqn:S.
  2: { left. exists vm_status. repeat split; trivial.
       eapply execute_command_no_status; eassumption. }
  right. destruct (differs_from_str status "running") eqn:D.
  { left. exists vm_status, status. repeat split; trivial.
    - now apply differs_from_str_spec.
    - eapply execute_command_not_running; eassumption. }
  right. apply differs_from_str_false in D. subst status.
  exists vm_status. repeat split; trivial.
  destruct (agent_exec_post api node vmid command) as [exec_result|e] eqn:E.
  2: { left. exists e. split; [reflexivity |].
       eapply execute_command_submit_raises; eassumption. }
  right. destruct (exec_result !! "pid") as [pid|] eqn:P.
  2: { left. exists exec_result. repeat split; trivial.
       eapply execute_command_no_pid; eassumption. }
  right. exists exec_result, pid. repeat split; trivial.
  destruct (agent_exec_status_get api node vmid pid) as [console|e] eqn:C.
  2: { left. exists e. split; [reflexivity |].
       eapply execute_command_poll_raises; eassumption. }
  right. destruct (truthy console) eqn:T.
  - right. exists console. repeat split; trivial.
    eapply execute_command_polled; eassumption.
  - left. exists console. repeat split; trivial.
    eapply execute_command_poll_empty; eassumption.
Qed.

Ltac invocation_cases api node vmid command :=
  let K := fresh "K" in
  pose proof (execute_command_cases api node vmid command) as K;
  cbv zeta in K;
  destruct K as
    [(?e & ?H & ?R)
    |[(?vm_status & ?H & ?S & ?R)
    |[(?vm_status & ?status & ?H & ?S & ?D & ?R)
    |(?vm_status & ?H & ?S &
       [(?e & ?E & ?R)
       |[(?exec_result & ?E & ?P & ?R)
       |(?exec_result & ?pid & ?E & ?P &
          [(?e & ?C & ?R)
          |[(?console & ?C & ?T & ?R)
          |(?console & ?C & ?T & ?R)]])]])]]].

Lemma normalize_trace_eq (console : response) :
  fst (normalize console)
  = match console with
    | Mapping d =>
        if truthy_value (default (VInt 0) (d !! "exited")) then []
        else [EvWarning "Command may not have completed"]
    | Plain _ => []
    end.
Proof.
  destruct console as [d|v]; cbn; [| reflexivity].
  now destruct (truthy_value (default (VInt 0) (d !! "exited"))).
Qed.




(** X3.  Every invocation starts with the status query and calls each
    operation of the collaborator at most once, always with the caller's
    node and vmid: its trace is the status query alone, or the status
    query and the submit, or those two followed by one sleep of 1 and the
    poll for exactly the pid the submit reply carried, with at most the
    normalization warning after it.  No invocation sleeps twice. *)
Theorem invocation_trace_shape
    (api : ProxmoxAPI) (node vmid command : string) :
  let trace := fst (execute_command api node vmid command) in
  (trace = [EvStatus node vmid]
   \/ trace = [EvStatus node vmid; EvSubmit node vmid command]
   \/ exists exec_result pid,
        agent_exec_post api node vmid command = Returns exec_result
        /\ exec_result !! "pid" = Some pid
        /\ (trace = [EvStatus node vmid; EvSubmit node vmid command;
                     EvSleep 1; EvPoll node vmid pid]
            \/ trace = [EvStatus node vmid; EvSubmit node vmid command;
                        EvSleep 1; EvPoll node vmid pid;
                        EvWarning "Command may not have completed"]))
  /\ settle_delays trace <= 1.
Proof.
  intros trace. subst trace.
  invocation_cases api node vmid command; rewrite R; cbn [fst].
  - split; [now left | cbn; lia].
  - split; [now left | cbn; lia].
  - split; [now left | cbn; lia].
  - split; [now (right; left) | cbn; lia].
  - split; [now (right; left) | cbn; lia].
  - split; [| cbn; lia].
    right; right. exists exec_result, pid. repeat split; trivial. now left.
  - split; [| cbn; lia].
    right; right. exists exec_result, pid. repeat split; trivial. now left.
  - destruct (normalize_trace console) as [-> | ->]; (split; [| cbn; lia]);
      right; right; exists exec_result, pid; repeat split; trivial;
      [now left | now right].
Qed.

(** ** Failures before the poll *)



(** X5.  When the status query itself fails, nothing else is called, and
    the failure is classified in this order: a [ValueError] (or subclass)
    is re-raised as it is; otherwise a message mentioning "not found"
    gives the not-found [ValueError]; otherwise the caller gets a
    [RuntimeError] with "Failed to execute command: " before the
    failure's message. *)
Theorem status_failure_classification
    (api : ProxmoxAPI) (node vmid command : string) (e : exn) :
  status_current_get api node vmid = Raises e ->
  execute_command api node vmid command
  = ([EvStatus node vmid],
     Raises (if isinstance_ValueError e then e
             else if mentions_not_found (exn_str e)
                  then not_found_error node vmid
                  else Exn RuntimeError
                    ("Failed to execute command: " +:+ exn_str e))).
Proof.
  intros H. rewrite (execute_command_status_raises _ _ _ _ _ H).
  now rewrite classify_raises.
Qed.

Lemma status_failure_classification_witness :
  execute_command
    (scripted (Raises (Exn (Derived "ConnectionError" Exception) "connection refused"))
       (started 42) (Returns (Plain VNone)))
    "pve" "100" "uptime"
  = ([EvStatus "pve" "100"],
     Raises (Exn RuntimeError "Failed to execute command: connection refused")).
Proof.
  exact (status_failure_classification
           (scripted
              (Raises (Exn (Derived "ConnectionError" Exception) "connection refused"))
              (started 42) (Returns (Plain VNone)))
           "pve" "100" "uptime"
           (Exn (Derived "ConnectionError" Exception) "connection refused")
           eq_refl).
Defined.

(** X6.  A status reply that has no ["status"] key makes the subscript of
    line 38 raise [KeyError('status')]; the caller gets the [RuntimeError]
    "Failed to execute command: 'status'", whatever the node and vmid are
    (so never the not-found or not-running error), and neither the submit
    nor the poll is called. *)
Theorem missing_status_key_is_a_runtime_error
    (api : ProxmoxAPI) (node vmid command : string)
    (vm_status : gmap string value) :
  status_current_get api node vmid = Returns vm_status ->
  vm_status !! "status" = None ->
  execute_command api node vmid command
  = ([EvStatus node vmid],
     Raises (Exn RuntimeError "Failed to execute command: 'status'")).
Proof. intros H S. eapply execute_command_no_status; eassumption. Qed.

Lemma missing_status_key_is_a_runtime_error_witness :
  execute_command
    (scripted (Returns {[ "name" := VStr "web01" ]}) (started 42)
       (Returns (Plain VNone)))
    "pve" "100" "uptime"
  = ([EvStatus "pve" "100"],
     Raises (Exn RuntimeError "Failed to execute command: 'status'")).
Proof.
  exact (missing_status_key_is_a_runtime_error
           (scripted (Returns {[ "name" := VStr "web01" ]}) (started 42)
              (Returns (Plain VNone)))
           "pve" "100" "uptime" {[ "name" := VStr "web01" ]} eq_refl eq_refl).
Defined.

(** ** What normalization looks at *)

(** X7.  When the poll reply reaches normalization, the warning "Command
    may not have completed" is logged exactly when the reply is a mapping
    whose [exited] field is missing or is a value Python takes for false;
    a reply that is not a mapping never logs it. *)
Theorem warning_iff_mapping_not_exited
    (api : ProxmoxAPI) (node vmid command : string)
    (vm_status exec_result : gmap string value) (pid : value)
    (console : response) :
  status_current_get api node vmid = Returns vm_status ->
  vm_status !! "status" = Some (VStr "running") ->
  agent_exec_post api node vmid command = Returns exec_result ->
  exec_result !! "pid" = Some pid ->
  agent_exec_status_get api node vmid pid = Returns console ->
  truthy console = true ->
  EvWarning "Command may not have completed"
    ∈ fst (execute_command api node vmid command)
  <-> exists d, console = Mapping d
        /\ truthy_value (default (VInt 0) (d !! "exited")) = false.
Proof.
  intros H S E P C T.
  rewrite (execute_command_polled _ _ _ _ _ _ _ H S E P _ C T).
  cbn [fst]. rewrite normalize_trace_eq.
  rewrite elem_of_app, !elem_of_cons, elem_of_nil.
  destruct console as [d|v].
  - destruct (truthy_value (default (VInt 0) (d !! "exited"))) eqn:X.
    + rewrite elem_of_nil. split.
      * intros [[?|[?|[?|[?|[]]]]]|[]]; discriminate.
      * intros (d' & Hd & X'). injection Hd as <-. congruence.
    + split; [intros _; now exists d |].
      intros _. right. apply elem_of_cons. now left.
  - rewrite elem_of_nil. split.
    + intros [[?|[?|[?|[?|[]]]]]|[]]; discriminate.
    + intros (d & Hd & _). discriminate Hd.
Qed.

Lemma warning_iff_mapping_not_exited_witness :
  EvWarning "Command may not have completed"
    ∈ fst (execute_command
             (scripted vm_running (started 42)
                (Returns (Mapping {[ "out-data" := VStr "partial" ]})))
             "pve" "100" "sleep 60")
  <-> exists d, Mapping {[ "out-data" := VStr "partial" ]} = Mapping d
        /\ truthy_value (default (VInt 0) (d !! "exited")) = false.
Proof.
  exact (warning_iff_mapping_not_exited
           (scripted vm_running (started 42)
              (Returns (Mapping {[ "out-data" := VStr "partial" ]})))
           "pve" "100" "sleep 60" {[ "status" := VStr "running" ]}
           {[ "pid" := VInt 42 ]} (VInt 42)
           (Mapping {[ "out-data" := VStr "partial" ]})
           eq_refl eq_refl eq_refl eq_refl eq_refl eq_refl).
Defined.


